(** * Deutsch and Deutsch-Jozsa: oracle encoding and outcome classification

    A shallow embedding of [deutsch_algorithm.py].  The script owns two
    pieces of logic: the if-chains that append an oracle's gates to a
    circuit under construction, and the decision procedures that read a
    histogram of measurement counts and answer 'constant' or 'balanced'.
    The circuit object and the simulator belong to the quantum library;
    a circuit is modelled here by what the script does to it, the ordered
    list of gate calls it has received. *)

From Stdlib Require Import ZArith.
From stdpp Require Import base option list strings gmap fin_maps.

Local Open Scope string_scope.
Local Open Scope Z_scope.

(** ** Python values *)

(** The two exceptions the modelled code can raise: [ValueError] is raised
    by hand in [deutsch_algorithm], [KeyError] is what a subscript
    [counts[k]] raises on a missing key. *)
Inductive exn : Type :=
| ValueError (msg : string)
| KeyError (key : string).

(** The outcome of running a piece of Python: a value, or an exception
    that unwinds to the caller. *)
Inductive result (A : Type) : Type :=
| Ok (a : A)
| Raise (e : exn).
Arguments Ok {A} a.
Arguments Raise {A} e.

#[global] Instance result_ret : MRet result := fun A a => Ok a.
#[global] Instance result_fmap : FMap result := fun A B f m =>
  match m with
  | Ok a => Ok (f a)
  | Raise e => Raise e
  end.
#[global] Instance result_bind : MBind result := fun A B k m =>
  match m with
  | Ok a => k a
  | Raise e => Raise e
  end.

(** [s * n] on a Python string: [n] copies of [s], none when [n <= 0]. *)
Definition str_mul (s : string) (n : Z) : string :=
  Nat.iter (Z.to_nat n) (String.append s) "".

(** [range(n)]: the integers [0 .. n-1], empty when [n <= 0]. *)
Definition range (n : Z) : list Z :=
  map Z.of_nat (seq 0 (Z.to_nat n)).

(** ** Dictionaries of counts

    [get_counts] hands back a dict from bitstrings to integers.  Python
    integers are unbounded, hence [Z]. *)

(** [k in d] *)
Definition dict_contains (k : string) (d : gmap string Z) : bool :=
  bool_decide (is_Some (d !! k)).

(** [d[k]] *)
Definition dict_getitem (d : gmap string Z) (k : string) : result Z :=
  match d !! k with
  | Some v => Ok v
  | None => Raise (KeyError k)
  end.

(** [d.get(k, dflt)] *)
Definition dict_get (d : gmap string Z) (k : string) (dflt : Z) : Z :=
  default dflt (d !! k).

(** [d.keys()]; the order of iteration is immaterial to [all]. *)
Definition dict_keys (d : gmap string Z) : list string :=
  elements (dom d).

(** ** Circuits under construction *)

(** One call on the circuit object.  [Flip q] is [qc.x(q)], the
    unconditional flip of bit [q]; [ControlledFlip c t] is [qc.cx(c, t)],
    the flip of [t] when [c] is set; [Hadamard q] is [qc.h(q)];
    [Measure qs cs] is [qc.measure(qs, cs)]. *)
Inductive GateOp : Type :=
| Flip (q : Z)
| Hadamard (q : Z)
| ControlledFlip (c t : Z)
| Measure (qubits clbits : list Z).

(** [QuantumCircuit(nq, nc)] and the calls made on it so far, oldest
    first. *)
Record QuantumCircuit : Type := mkQuantumCircuit {
  num_qubits : Z;
  num_clbits : Z;
  data : list GateOp
}.

Definition new_circuit (nq nc : Z) : QuantumCircuit :=
  mkQuantumCircuit nq nc [].

(** The circuit [qc] after the calls [ops] were made on it. *)
Definition extend (qc : QuantumCircuit) (ops : list GateOp) : QuantumCircuit :=
  mkQuantumCircuit (num_qubits qc) (num_clbits qc) (data qc ++ ops).

(** Code that mutates the circuit [qc] it holds and may raise: the circuit
    is threaded through, and an exception drops it. *)
Definition Build (A : Type) : Type :=
  QuantumCircuit → result (A * QuantumCircuit).

#[global] Instance Build_ret : MRet Build := fun A a qc => Ok (a, qc).
#[global] Instance Build_bind : MBind Build := fun A B k m qc =>
  match m qc with
  | Ok (a, qc') => k a qc'
  | Raise e => Raise e
  end.

Definition raise {A : Type} (e : exn) : Build A := fun _ => Raise e.

Definition emit (i : GateOp) : Build unit := fun qc =>
  Ok (tt, mkQuantumCircuit (num_qubits qc) (num_clbits qc) (data qc ++ [i])).

Definition x (q : Z) : Build unit := emit (Flip q).
Definition h (q : Z) : Build unit := emit (Hadamard q).
Definition cx (c t : Z) : Build unit := emit (ControlledFlip c t).
Definition measure (qs cs : list Z) : Build unit := emit (Measure qs cs).

(** [for i in l: body(i)] *)
Fixpoint for_each {A : Type} (l : list A) (body : A → Build unit) : Build unit :=
  match l with
  | [] => mret tt
  | i :: l' => body i ;; for_each l' body
  end.

(** Runs a builder on a fresh circuit and keeps the circuit. *)
Definition build (nq nc : Z) (m : Build unit) : result QuantumCircuit :=
  match m (new_circuit nq nc) with
  | Ok (_, qc) => Ok qc
  | Raise e => Raise e
  end.

(** ** The oracle encoders *)

(** Lines 29-44 of [deutsch_algorithm]: the oracle of the one-bit case. *)
Definition deutsch_oracle (oracle_type : string) : Build unit :=
  if String.eqb oracle_type "constant_0" then
    mret tt
  else if String.eqb oracle_type "constant_1" then
    x 1
  else if String.eqb oracle_type "balanced_01" then
    cx 0 1
  else if String.eqb oracle_type "balanced_10" then
    x 1 ;; cx 0 1 ;; x 1
  else
    raise (ValueError "Invalid oracle type").

(** Lines 19-50 of [deutsch_algorithm]: the whole circuit handed to the
    simulator. *)
Definition deutsch_algorithm_circuit (oracle_type : string) : result QuantumCircuit :=
  build 2 1
    (x 1 ;;
     h 0 ;;
     h 1 ;;
     deutsch_oracle oracle_type ;;
     h 0 ;;
     measure [0] [0]).

(** Lines 139-146: the oracle of the n-bit case.  The chain has no final
    [else]: any other name falls through and the function returns. *)
Definition deutsch_jozsa_oracle (oracle_type : string) (n : Z) : Build unit :=
  if String.eqb oracle_type "constant_0" then
    mret tt
  else if String.eqb oracle_type "constant_1" then
    x n
  else if String.eqb oracle_type "balanced" then
    cx 0 n
  else
    mret tt.

(** Lines 149-156 of [deutsch_jozsa]: the circuit handed to the simulator.
    The checks of the quantum library are not part of the model: it
    rejects the register sizes of [n < 0] and the call [cx(0, 0)] that the
    balanced oracle makes at [n = 0].  The model follows the code for
    [n >= 1], and the statements about it carry that bound. *)
Definition deutsch_jozsa_circuit (n : Z) (oracle_type : string) : result QuantumCircuit :=
  build (n + 1) n
    (x n ;;
     for_each (range (n + 1)) h ;;
     deutsch_jozsa_oracle oracle_type n ;;
     for_each (range n) h ;;
     measure (range n) (range n)).

(** The names each chain of comparisons knows. *)
Definition deutsch_names : list string :=
  ["constant_0"; "constant_1"; "balanced_01"; "balanced_10"].

Definition deutsch_jozsa_names : list string :=
  ["constant_0"; "constant_1"; "balanced"].

(** ** Gates on classical bits *)

(** Modelled from the spec: what a gate does to a register of classical
    bits.  The gates are the quantum library's; section 3 of the spec
    reads [Flip] as an unconditional bit flip and [ControlledFlip] as a
    flip of the target iff the control bit is 1.  A register maps a bit
    index to its value.  [Hadamard] and [Measure] have no such reading and
    stop the run. *)
Definition apply_gate (g : GateOp) (reg : Z → bool) : option (Z → bool) :=
  match g with
  | Flip q =>
      Some (λ i, if decide (i = q) then negb (reg i) else reg i)
  | ControlledFlip c t =>
      Some (λ i, if decide (i = t) then xorb (reg i) (reg c) else reg i)
  | Hadamard _ | Measure _ _ => None
  end.

Definition apply_gates (ops : list GateOp) (reg : Z → bool) : option (Z → bool) :=
  foldl (λ r g, r ≫= apply_gate g) (Some reg) ops.

(** The function each one-bit name stands for, from the comments of lines
    30, 33, 36 and 39: [f(0), f(1)] is 0,0 then 1,1 then 0,1 then 1,0. *)
Definition deutsch_function (oracle_type : string) : option (bool → bool) :=
  if String.eqb oracle_type "constant_0" then Some (λ _, false)
  else if String.eqb oracle_type "constant_1" then Some (λ _, true)
  else if String.eqb oracle_type "balanced_01" then Some (λ b, b)
  else if String.eqb oracle_type "balanced_10" then Some negb
  else None.

(** The function each n-bit name stands for, from the comments of lines
    141, 143 and 145: all 0, all 1, and the first bit [x[0]]. *)
Definition deutsch_jozsa_function (oracle_type : string) : option ((Z → bool) → bool) :=
  if String.eqb oracle_type "constant_0" then Some (λ _, false)
  else if String.eqb oracle_type "constant_1" then Some (λ _, true)
  else if String.eqb oracle_type "balanced" then Some (λ xs, xs 0)
  else None.

(** An oracle for [f] with output bit [out]: the gates [ops] leave every
    other bit alone and add [f] of the register to the output bit. *)
Definition computes (ops : list GateOp) (out : Z) (f : (Z → bool) → bool) : Prop :=
  ∀ reg, ∃ reg',
    apply_gates ops reg = Some reg' ∧
    (∀ i, i ≠ out → reg' i = reg i) ∧
    reg' out = xorb (reg out) (f reg).

(** ** The outcome classifiers *)

(** Lines 59-73.  The conjunction short-circuits: [counts['0']] is read
    only after ['0' in counts] held. *)
Definition interpret_result (counts : gmap string Z) : result string :=
  if dict_contains "0" counts then
    c0 ← dict_getitem counts "0";
    if c0 >? dict_get counts "1" 0 then mret "constant" else mret "balanced"
  else
    mret "balanced".

(** The test of line 166 at any arity, the classifier the spec describes:
    [all(key == '0'*n for key in counts.keys())].  The script has it at
    arity 3 only, [is_constant_3] below. *)
Definition is_constant (n : Z) (counts : gmap string Z) : bool :=
  forallb (fun key => String.eqb key (str_mul "0" n)) (dict_keys counts).

(** Line 167 at any arity, ['constant' if is_constant else 'balanced']. *)
Definition dj_interpret (n : Z) (counts : gmap string Z) : string :=
  if is_constant n counts then "constant" else "balanced".

(** Line 166 as it is written,
    [all(key == '0'*3 for key in counts.keys())]. *)
Definition is_constant_3 (counts : gmap string Z) : bool :=
  forallb (fun key => String.eqb key (str_mul "0" 3)) (dict_keys counts).

(** Line 167 as it is written. *)
Definition dj_interpret_3 (counts : gmap string Z) : string :=
  if is_constant_3 counts then "constant" else "balanced".

(** [sub in s] on Python strings. *)
Definition str_contains (sub s : string) : bool :=
  match String.index 0%nat sub s with
  | Some _ => true
  | None => false
  end.

(** Line 129, the answer the performance test expects of an oracle name:
    ['constant' if 'constant' in oracle else 'balanced']. *)
Definition expected (oracle : string) : string :=
  if str_contains "constant" oracle then "constant" else "balanced".

(** The condition under which [interpret_result] answers 'constant':
    ['0'] is a key and its count is above that of ['1']. *)
Definition zero_wins (counts : gmap string Z) : Prop :=
  ∃ c0, counts !! "0" = Some c0 ∧ c0 > default 0 (counts !! "1").

(** ** The simulator and the script around it *)

(** What one call [simulator.run(qc, shots=s).result().get_counts(qc)]
    answers.  The sampling is the library's: a call is any function of the
    circuit and the shot count, and two calls need not be the same
    function. *)
Definition Simulator : Type := QuantumCircuit → Z → gmap string Z.

(** Lines 8-57, [deutsch_algorithm]: build the circuit, then one call of
    the simulator with 1024 shots. *)
Definition deutsch_algorithm (simulate : Simulator) (oracle_type : string)
  : result (gmap string Z) :=
  qc ← deutsch_algorithm_circuit oracle_type;
  mret (simulate qc 1024).

(** Lines 148-160, [deutsch_jozsa]. *)
Definition deutsch_jozsa (simulate : Simulator) (n : Z) (oracle_type : string)
  : result (gmap string Z) :=
  qc ← deutsch_jozsa_circuit n oracle_type;
  mret (simulate qc 1024).

(** Line 77. *)
Definition oracle_types : list string :=
  ["constant_0"; "constant_1"; "balanced_01"; "balanced_10"].

(** Line 162. *)
Definition dj_oracles : list string :=
  ["constant_0"; "constant_1"; "balanced"].

(** Lines 81-82, one round of the first loop: run, then classify. *)
Definition test_oracle (simulate : Simulator) (oracle : string) : result string :=
  counts ← deutsch_algorithm simulate oracle;
  interpret_result counts.

(** Lines 104-113, the oracle of the noise test: the chain of
    [deutsch_algorithm] written out again, without its final [else]. *)
Definition noisy_oracle (oracle : string) : Build unit :=
  if String.eqb oracle "constant_0" then
    mret tt
  else if String.eqb oracle "constant_1" then
    x 1
  else if String.eqb oracle "balanced_01" then
    cx 0 1
  else if String.eqb oracle "balanced_10" then
    x 1 ;; cx 0 1 ;; x 1
  else
    mret tt.

(** Lines 99-115, the circuit of the noise test. *)
Definition noisy_circuit (oracle : string) : result QuantumCircuit :=
  build 2 1
    (x 1 ;;
     h 0 ;;
     h 1 ;;
     noisy_oracle oracle ;;
     h 0 ;;
     measure [0] [0]).

(** Lines 117-120, one round of the noise test; [simulate] is the call
    with the noise model. *)
Definition noisy_test (simulate : Simulator) (oracle : string) : result string :=
  qc ← noisy_circuit oracle;
  interpret_result (simulate qc 1024).

(** Lines 130-133, the loop of the performance test, one simulator call
    per round: [correct] counts the rounds classified as [expected]. *)
Fixpoint count_correct (sims : list Simulator) (oracle expected : string)
    (correct : Z) : result Z :=
  match sims with
  | [] => mret correct
  | simulate :: rest =>
      counts ← deutsch_algorithm simulate oracle;
      label ← interpret_result counts;
      count_correct rest oracle expected
        (if String.eqb label expected then correct + 1 else correct)
  end.

(** Lines 128-133 for one oracle, up to the final value of [correct]. *)
Definition performance (sims : list Simulator) (oracle : string) : result Z :=
  count_correct sims oracle (expected oracle) 0.

(** Lines 164-167, one round of the last loop: [deutsch_jozsa(3, oracle)],
    then the test against ['0'*3]. *)
Definition dj_test (simulate : Simulator) (oracle : string) : result string :=
  counts ← deutsch_jozsa simulate 3 oracle;
  mret (dj_interpret_3 counts).

(** ** Indices and registers *)

(** [0 <= i < n] *)
Definition in_range (n i : Z) : bool := (0 <=? i) && (i <? n).

(** A call stays inside a circuit of [nq] qubits and [nc] classical bits:
    every index it names lies in its register, a controlled flip names two
    different qubits, and a measure pairs as many qubits as bits. *)
Definition gate_in_registers (nq nc : Z) (g : GateOp) : bool :=
  match g with
  | Flip q | Hadamard q => in_range nq q
  | ControlledFlip c t =>
      in_range nq c && in_range nq t && negb (c =? t)
  | Measure qs cs =>
      forallb (in_range nq) qs && forallb (in_range nc) cs &&
      Nat.eqb (length qs) (length cs)
  end.

Definition in_registers (qc : QuantumCircuit) : bool :=
  forallb (gate_in_registers (num_qubits qc) (num_clbits qc)) (data qc).

(** Splits on the comparisons [name == s] of an if-chain, first to last. *)
Ltac name_cases name :=
  repeat match goal with
  | H : context [String.eqb name ?s] |- _ =>
      destruct (String.eqb_spec name s) as [-> | ?]
  end.

(** Settles a goal [computes ops out f] on explicit gates. *)
Ltac run_gates :=
  intros reg; eexists; split; [reflexivity |]; split;
  [ intros i Hi; simpl; repeat case_decide; congruence
  | simpl; repeat case_decide; try congruence;
    repeat match goal with |- context [reg ?i] => destruct (reg i) end;
    reflexivity ].

(** Rewrites the comparisons [name == s] that the hypotheses refute. *)
Ltac refute_names :=
  repeat match goal with
  | H : ?name ≠ ?s |- context [String.eqb ?name ?s] =>
      rewrite (proj2 (String.eqb_neq name s) H)
  end.

(** ** Running the code on the spec's scenarios *)

Example deutsch_circuit_balanced_10 :
  data <$> deutsch_algorithm_circuit "balanced_10" =
  Ok [Flip 1; Hadamard 0; Hadamard 1; Flip 1; ControlledFlip 0 1; Flip 1;
      Hadamard 0; Measure [0] [0]].
Proof. reflexivity. Qed.

Example deutsch_circuit_constant_0 :
  data <$> deutsch_algorithm_circuit "constant_0" =
  Ok [Flip 1; Hadamard 0; Hadamard 1; Hadamard 0; Measure [0] [0]].
Proof. reflexivity. Qed.

Example deutsch_circuit_xor_3 :
  deutsch_algorithm_circuit "xor_3" = Raise (ValueError "Invalid oracle type").
Proof. reflexivity. Qed.

Example deutsch_jozsa_circuit_balanced_3 :
  data <$> deutsch_jozsa_circuit 3 "balanced" =
  Ok [Flip 3; Hadamard 0; Hadamard 1; Hadamard 2; Hadamard 3;
      ControlledFlip 0 3;
      Hadamard 0; Hadamard 1; Hadamard 2; Measure [0; 1; 2] [0; 1; 2]].
Proof. reflexivity. Qed.

Example scenario_3 : interpret_result {[ "0" := 1024 ]} = Ok "constant".
Proof. vm_compute. reflexivity. Qed.

Example scenario_4 : interpret_result {[ "1" := 1024 ]} = Ok "balanced".
Proof. vm_compute. reflexivity. Qed.

Example scenario_tie :
  interpret_result (<[ "0" := 5 ]> {[ "1" := 5 ]}) = Ok "balanced".
Proof. vm_compute. reflexivity. Qed.

Example scenario_5 : dj_interpret 3 {[ "000" := 1024 ]} = "constant".
Proof. vm_compute. reflexivity. Qed.

Example scenario_6 :
  dj_interpret 3 (<[ "000" := 500 ]> {[ "101" := 524 ]}) = "balanced".
Proof. vm_compute. reflexivity. Qed.

(** ** Circuits: what a builder appends *)

Lemma extend_nil qc : extend qc [] = qc.
Proof. destruct qc as [nq nc ops]. unfold extend; simpl. by rewrite app_nil_r. Qed.

Lemma extend_extend qc ops1 ops2 :
  extend (extend qc ops1) ops2 = extend qc (ops1 ++ ops2).
Proof. unfold extend; simpl. by rewrite app_assoc. Qed.

Lemma emit_extend i qc : emit i qc = Ok (tt, extend qc [i]).
Proof. reflexivity. Qed.

Lemma bind_extend (m1 m2 : Build unit) qc ops1 ops2 :
  m1 qc = Ok (tt, extend qc ops1) →
  (∀ qc', m2 qc' = Ok (tt, extend qc' ops2)) →
  (m1 ;; m2) qc = Ok (tt, extend qc (ops1 ++ ops2)).
Proof.
  intros H1 H2. unfold mbind, Build_bind. rewrite H1, H2.
  by rewrite extend_extend.
Qed.

Lemma deutsch_oracle_constant_0 qc :
  deutsch_oracle "constant_0" qc = Ok (tt, qc).
Proof. reflexivity. Qed.

Lemma deutsch_oracle_constant_1 qc :
  deutsch_oracle "constant_1" qc = Ok (tt, extend qc [Flip 1]).
Proof. reflexivity. Qed.

Lemma deutsch_oracle_balanced_01 qc :
  deutsch_oracle "balanced_01" qc = Ok (tt, extend qc [ControlledFlip 0 1]).
Proof. reflexivity. Qed.

Lemma deutsch_oracle_balanced_10 qc :
  deutsch_oracle "balanced_10" qc =
  Ok (tt, extend qc [Flip 1; ControlledFlip 0 1; Flip 1]).
Proof.
  change (deutsch_oracle "balanced_10") with (x 1 ;; cx 0 1 ;; x 1).
  apply (bind_extend _ _ qc [Flip 1] [ControlledFlip 0 1; Flip 1]); [done |].
  intros qc'. by apply (bind_extend _ _ qc' [ControlledFlip 0 1] [Flip 1]).
Qed.

Lemma deutsch_oracle_known name :
  name ∈ deutsch_names →
  ∃ ops, ∀ qc, deutsch_oracle name qc = Ok (tt, extend qc ops).
Proof.
  unfold deutsch_names. rewrite !elem_of_cons, elem_of_nil.
  intros [-> | [-> | [-> | [-> | []]]]].
  - exists []. intros qc. by rewrite extend_nil.
  - exists [Flip 1]. apply deutsch_oracle_constant_1.
  - exists [ControlledFlip 0 1]. apply deutsch_oracle_balanced_01.
  - exists [Flip 1; ControlledFlip 0 1; Flip 1]. apply deutsch_oracle_balanced_10.
Qed.

Lemma deutsch_oracle_unknown name qc :
  name ∉ deutsch_names →
  deutsch_oracle name qc = Raise (ValueError "Invalid oracle type").
Proof.
  unfold deutsch_names. rewrite !not_elem_of_cons.
  intros (H1 & H2 & H3 & H4 & _). unfold deutsch_oracle.
  by refute_names.
Qed.

Lemma deutsch_jozsa_oracle_unknown name n qc :
  name ∉ deutsch_jozsa_names → deutsch_jozsa_oracle name n qc = Ok (tt, qc).
Proof.
  unfold deutsch_jozsa_names. rewrite !not_elem_of_cons.
  intros (H1 & H2 & H3 & _). unfold deutsch_jozsa_oracle.
  by refute_names.
Qed.

Lemma deutsch_jozsa_oracle_constant_0 n qc :
  deutsch_jozsa_oracle "constant_0" n qc = Ok (tt, qc).
Proof. reflexivity. Qed.

Lemma deutsch_jozsa_oracle_constant_1 n qc :
  deutsch_jozsa_oracle "constant_1" n qc = Ok (tt, extend qc [Flip n]).
Proof. reflexivity. Qed.

Lemma deutsch_jozsa_oracle_balanced n qc :
  deutsch_jozsa_oracle "balanced" n qc = Ok (tt, extend qc [ControlledFlip 0 n]).
Proof. reflexivity. Qed.

(** Whatever the name, the n-bit chain returns normally. *)
Lemma deutsch_jozsa_oracle_returns name n :
  ∃ ops, ∀ qc, deutsch_jozsa_oracle name n qc = Ok (tt, extend qc ops).
Proof.
  destruct (decide (name ∈ deutsch_jozsa_names)) as [Hin | Hout].
  - revert Hin. unfold deutsch_jozsa_names.
    rewrite !elem_of_cons, elem_of_nil.
    intros [-> | [-> | [-> | []]]].
    + exists []. intros qc. by rewrite extend_nil.
    + exists [Flip n]. apply deutsch_jozsa_oracle_constant_1.
    + exists [ControlledFlip 0 n]. apply deutsch_jozsa_oracle_balanced.
  - exists []. intros qc. rewrite extend_nil.
    by apply deutsch_jozsa_oracle_unknown.
Qed.

(** ** Histograms: what the classifiers read *)

Lemma dict_contains_lookup k (d : gmap string Z) :
  dict_contains k d = true ↔ ∃ v, d !! k = Some v.
Proof. unfold dict_contains. by rewrite bool_decide_eq_true. Qed.

(** [interpret_result] never reaches the [KeyError] of its subscript: the
    membership test guards it. *)
Lemma interpret_result_eq (counts : gmap string Z) :
  interpret_result counts =
  Ok (match counts !! "0" with
      | Some c0 => if c0 >? default 0 (counts !! "1") then "constant" else "balanced"
      | None => "balanced"
      end).
Proof.
  unfold interpret_result, dict_contains, dict_getitem, dict_get.
  destruct (counts !! "0") as [c0 |] eqn:E0.
  - rewrite bool_decide_eq_true_2 by eauto. simpl.
    by destruct (c0 >? default 0 (counts !! "1")).
  - rewrite bool_decide_eq_false_2; [done |]. by intros [v Hv].
Qed.

(** [all] answers [False] only at an element that fails the test. *)
Lemma forallb_false_elem {A : Type} (f : A → bool) (l : list A) :
  forallb f l = false → ∃ a, a ∈ l ∧ f a = false.
Proof.
  induction l as [| a l IH]; simpl; [done |].
  destruct (f a) eqn:Ea; simpl.
  - intros H. destruct (IH H) as (b & Hb & Hfb).
    exists b. split; [by right | done].
  - intros _. exists a. split; [by left | done].
Qed.

Lemma is_constant_true n (counts : gmap string Z) :
  is_constant n counts = true ↔ ∀ key, key ∈ dom counts → key = str_mul "0" n.
Proof.
  unfold is_constant, dict_keys. rewrite forallb_forall. split.
  - intros H key Hk. apply String.eqb_eq, H, list_elem_of_In.
    by apply elem_of_elements.
  - intros H key Hk. apply String.eqb_eq, H.
    by apply elem_of_elements, list_elem_of_In.
Qed.

Lemma is_constant_false n (counts : gmap string Z) :
  is_constant n counts = false ↔ ∃ key, key ∈ dom counts ∧ key ≠ str_mul "0" n.
Proof.
  unfold is_constant, dict_keys. split.
  - intros H. destruct (forallb_false_elem _ _ H) as (key & Hk & Hne).
    exists key. split.
    + by apply elem_of_elements.
    + by apply String.eqb_neq.
  - intros [key [Hk Hne]]. apply not_true_is_false. intros Ht.
    apply Hne. by apply (proj1 (is_constant_true n counts) Ht).
Qed.

(** ** The one-bit classifier *)

Lemma interpret_result_constant (counts : gmap string Z) :
  interpret_result counts = Ok "constant" ↔ zero_wins counts.
Proof.
  rewrite interpret_result_eq. unfold zero_wins.
  destruct (counts !! "0") as [c0 |] eqn:E0.
  - destruct (Z.gtb_spec c0 (default 0 (counts !! "1"))) as [Hgt | Hle].
    + split; [| done]. intros _. exists c0. split; [done | lia].
    + split; [done |]. intros (c & [= <-] & Hc). lia.
  - split; [done |]. by intros (c & Hc & _).
Qed.

Lemma interpret_result_balanced (counts : gmap string Z) :
  interpret_result counts = Ok "balanced" ↔ ¬ zero_wins counts.
Proof.
  rewrite <- interpret_result_constant, interpret_result_eq.
  destruct (counts !! "0") as [c0 |];
    [destruct (c0 >? default 0 (counts !! "1")) |]; by split.
Qed.

(** C1.  [interpret_result] answers 'constant' exactly when ['0'] is a key
    of the histogram and its count is strictly above the count of ['1']
    (0 when ['1'] is absent), and answers 'balanced' exactly otherwise; so
    the empty histogram, a histogram without ['0'], and a tie between the
    two counts are all 'balanced'. *)
Theorem interpret_result_constant_iff (counts : gmap string Z) :
  (interpret_result counts = Ok "constant" ↔
     ∃ c0, counts !! "0" = Some c0 ∧ c0 > default 0 (counts !! "1")) ∧
  (interpret_result counts = Ok "balanced" ↔
     ¬ ∃ c0, counts !! "0" = Some c0 ∧ c0 > default 0 (counts !! "1")) ∧
  interpret_result ∅ = Ok "balanced" ∧
  (counts !! "0" = None → interpret_result counts = Ok "balanced") ∧
  (∀ c, counts !! "0" = Some c → default 0 (counts !! "1") = c →
        interpret_result counts = Ok "balanced").
Proof.
  split; [apply interpret_result_constant |].
  split; [apply interpret_result_balanced |].
  split; [| split].
  - by rewrite interpret_result_eq, lookup_empty.
  - intros E0. by rewrite interpret_result_eq, E0.
  - intros c E0 E1. apply interpret_result_balanced.
    intros (c0 & Hc0 & Hgt). rewrite E0 in Hc0. injection Hc0 as <-. lia.
Qed.

(** Two histograms that agree at ['0'] and at ['1'] get the same answer. *)
Lemma interpret_result_agree (h1 h2 : gmap string Z) :
  h1 !! "0" = h2 !! "0" →
  default 0 (h1 !! "1") = default 0 (h2 !! "1") →
  interpret_result h1 = interpret_result h2.
Proof.
  intros H0 H1. rewrite !interpret_result_eq. by rewrite H0, H1.
Qed.

(** Keys other than ['0'] and ['1'] never change the answer. *)
Lemma interpret_result_insert_other (counts : gmap string Z) key v :
  key ≠ "0" → key ≠ "1" →
  interpret_result (<[ key := v ]> counts) = interpret_result counts.
Proof.
  intros H0 H1. apply interpret_result_agree; by rewrite lookup_insert_ne.
Qed.

(** C9.  [interpret_result] reads the histogram only at ['0'] and ['1']:
    two histograms that agree on whether ['0'] is a key, on its count, and
    on the count of ['1'] (0 when absent) get the same answer, whatever
    other keys they hold. *)
Theorem interpret_result_reads_0_and_1 (h1 h2 : gmap string Z) :
  h1 !! "0" = h2 !! "0" →
  default 0 (h1 !! "1") = default 0 (h2 !! "1") →
  interpret_result h1 = interpret_result h2.
Proof.
  intros H0 H1.
  unfold interpret_result, dict_contains, dict_getitem, dict_get.
  rewrite H0, H1. reflexivity.
Qed.

Lemma interpret_result_reads_0_and_1_witness :
  let h1 : gmap string Z := <[ "0" := 7 ]> {[ "1" := 3 ]} in
  let h2 : gmap string Z := <[ "0" := 7 ]> (<[ "1" := 3 ]> {[ "101" := 9 ]}) in
  h1 !! "0" = h2 !! "0" ∧
  default 0 (h1 !! "1") = default 0 (h2 !! "1") ∧
  h1 ≠ h2 ∧
  interpret_result h1 = interpret_result h2.
Proof.
  intros h1 h2.
  assert (E0 : h1 !! "0" = h2 !! "0") by (vm_compute; reflexivity).
  assert (E1 : default 0 (h1 !! "1") = default 0 (h2 !! "1"))
    by (vm_compute; reflexivity).
  split; [exact E0 |]. split; [exact E1 |]. split.
  - intros E. apply (f_equal (λ m : gmap string Z, m !! "101")) in E.
    vm_compute in E. discriminate E.
  - exact (interpret_result_reads_0_and_1 h1 h2 E0 E1).
Defined.

(** ** The n-bit classifier *)

Lemma dj_interpret_constant (n : Z) (counts : gmap string Z) :
  dj_interpret n counts = "constant" ↔
  ∀ key, key ∈ dom counts → key = str_mul "0" n.
Proof.
  rewrite <- is_constant_true. unfold dj_interpret.
  by destruct (is_constant n counts).
Qed.

Lemma dj_interpret_balanced (n : Z) (counts : gmap string Z) :
  dj_interpret n counts = "balanced" ↔
  ∃ key, key ∈ dom counts ∧ key ≠ str_mul "0" n.
Proof.
  rewrite <- is_constant_false. unfold dj_interpret.
  by destruct (is_constant n counts).
Qed.

Lemma dj_interpret_stray_key (n : Z) (counts : gmap string Z) key c :
  counts !! key = Some c → key ≠ str_mul "0" n →
  dj_interpret n counts = "balanced".
Proof.
  intros Hc Hne. apply dj_interpret_balanced. exists key.
  split; [| done]. apply elem_of_dom. eauto.
Qed.

Lemma dj_interpret_same_keys (n : Z) (h1 h2 : gmap string Z) :
  dom h1 = dom h2 → dj_interpret n h1 = dj_interpret n h2.
Proof.
  intros Hdom. unfold dj_interpret, is_constant, dict_keys. by rewrite Hdom.
Qed.

(** The classifier at any arity answers 'constant' exactly when every key
    of the histogram is the string of [n] zeros, and 'balanced' exactly
    when some key is not; a key other than the zeros makes the answer
    'balanced' whatever count is stored under it. *)
Theorem dj_interpret_constant_iff (n : Z) (counts : gmap string Z) :
  (dj_interpret n counts = "constant" ↔
     ∀ key, key ∈ dom counts → key = str_mul "0" n) ∧
  (dj_interpret n counts = "balanced" ↔
     ∃ key, key ∈ dom counts ∧ key ≠ str_mul "0" n) ∧
  (∀ key c, counts !! key = Some c → key ≠ str_mul "0" n →
            dj_interpret n counts = "balanced").
Proof.
  split; [apply dj_interpret_constant |].
  split; [apply dj_interpret_balanced |].
  intros key c. apply dj_interpret_stray_key.
Qed.

(** The script's test is the instance at arity 3. *)
Lemma dj_interpret_3_eq (counts : gmap string Z) :
  dj_interpret_3 counts = dj_interpret 3 counts.
Proof. reflexivity. Qed.

(** C3.  The script's classifier is the one of arity 3: it answers
    'constant' exactly when every key of the histogram is ['000'], and
    'balanced' exactly when some key is not; a key other than ['000']
    makes the answer 'balanced' whatever count is stored under it. *)
Theorem dj_interpret_3_constant_iff (counts : gmap string Z) :
  (dj_interpret_3 counts = "constant" ↔
     ∀ key, key ∈ dom counts → key = "000") ∧
  (dj_interpret_3 counts = "balanced" ↔
     ∃ key, key ∈ dom counts ∧ key ≠ "000") ∧
  (∀ key c, counts !! key = Some c → key ≠ "000" →
            dj_interpret_3 counts = "balanced").
Proof.
  rewrite dj_interpret_3_eq.
  split; [apply (dj_interpret_constant 3) |].
  split; [apply (dj_interpret_balanced 3) |].
  intros key c. apply (dj_interpret_stray_key 3).
Qed.

(** C3, as the claim has it, fails at arity 2: the histogram
    [{'00': 1024}] has 2-bit keys, each the string of 2 zeros, and the
    script's test against ['0'*3] answers 'balanced'. *)
Lemma dj_interpret_3_not_every_arity :
  ¬ ∀ (n : Z) (counts : gmap string Z),
      1 ≤ n →
      (∀ key, key ∈ dom counts → String.length key = Z.to_nat n) →
      (dj_interpret_3 counts = "constant" ↔
       ∀ key, key ∈ dom counts → key = str_mul "0" n).
Proof.
  intros Hclaim.
  assert (Hlen : ∀ key, key ∈ dom ({[ "00" := 1024 ]} : gmap string Z) →
                        String.length key = Z.to_nat 2).
  { intros key Hk. rewrite dom_singleton_L in Hk.
    by apply elem_of_singleton in Hk as ->. }
  assert (Hall : ∀ key, key ∈ dom ({[ "00" := 1024 ]} : gmap string Z) →
                        key = str_mul "0" 2).
  { intros key Hk. rewrite dom_singleton_L in Hk.
    by apply elem_of_singleton in Hk as ->. }
  pose proof (proj2 (Hclaim 2 {[ "00" := 1024 ]} ltac:(lia) Hlen) Hall) as E.
  vm_compute in E. discriminate E.
Qed.

(** C10.  The n-bit classifier reads the keys of the histogram and never
    the counts: two histograms with the same keys get the same answer, and
    a key other than the zeros forces 'balanced' even with count 0. *)
Theorem dj_interpret_reads_keys (n : Z) (h1 h2 : gmap string Z) :
  dom h1 = dom h2 →
  dj_interpret n h1 = dj_interpret n h2 ∧
  (∀ key, h1 !! key = Some 0 → key ≠ str_mul "0" n →
          dj_interpret n h1 = "balanced" ∧ dj_interpret n h2 = "balanced").
Proof.
  intros Hdom.
  pose proof (dj_interpret_same_keys n h1 h2 Hdom) as Heq.
  split; [exact Heq |].
  intros key H0 Hne. rewrite <- Heq.
  split; by apply (dj_interpret_stray_key n h1 key 0).
Qed.

Lemma dj_interpret_reads_keys_witness :
  let h1 : gmap string Z := <[ "000" := 5 ]> {[ "101" := 0 ]} in
  let h2 : gmap string Z := <[ "000" := 1 ]> {[ "101" := 7 ]} in
  dom h1 = dom h2 ∧
  dj_interpret 3 h1 = dj_interpret 3 h2 ∧
  dj_interpret 3 h2 = "balanced".
Proof.
  intros h1 h2.
  assert (Hdom : dom h1 = dom h2) by (vm_compute; reflexivity).
  pose proof (dj_interpret_reads_keys 3 h1 h2 Hdom) as [Heq Hbal].
  split; [exact Hdom |]. split; [exact Heq |].
  apply (Hbal "101"); [vm_compute; reflexivity | discriminate].
Defined.

(** C8.  On the empty histogram the two classifiers disagree: the n-bit
    one answers 'constant' (no key fails the test), the one-bit one
    answers 'balanced'. *)
Theorem classifiers_disagree_on_empty (n : Z) :
  dj_interpret n ∅ = "constant" ∧ interpret_result ∅ = Ok "balanced".
Proof.
  split.
  - unfold dj_interpret, is_constant, dict_keys.
    by rewrite dom_empty_L, elements_empty.
  - by rewrite interpret_result_eq, lookup_empty.
Qed.

(** C6.  Both classifiers are total: [interpret_result] never raises and
    answers one of the two labels, the n-bit classifier answers one of the
    two labels, and each answers 'balanced' whenever its condition for
    'constant' fails. *)
Theorem classifiers_total (n : Z) (counts : gmap string Z) :
  (∃ label, interpret_result counts = Ok label ∧
            (label = "constant" ∨ label = "balanced")) ∧
  (¬ (∃ c0, counts !! "0" = Some c0 ∧ c0 > default 0 (counts !! "1")) →
     interpret_result counts = Ok "balanced") ∧
  (dj_interpret n counts = "constant" ∨ dj_interpret n counts = "balanced") ∧
  (¬ (∀ key, key ∈ dom counts → key = str_mul "0" n) →
     dj_interpret n counts = "balanced").
Proof.
  split; [| split; [| split]].
  - rewrite interpret_result_eq.
    destruct (counts !! "0") as [c0 |];
      [destruct (c0 >? default 0 (counts !! "1")) |]; eauto.
  - apply interpret_result_balanced.
  - unfold dj_interpret. destruct (is_constant n counts); auto.
  - intros Hno. unfold dj_interpret.
    destruct (is_constant n counts) eqn:E; [| done].
    exfalso. by apply Hno, is_constant_true.
Qed.

(** ** The oracle encoders *)

(** C2.  On each of its four names the one-bit chain appends exactly the
    gates of the table to the circuit it is given: nothing for
    constant_0, [Flip 1] for constant_1, [ControlledFlip 0 1] for
    balanced_01, and [Flip 1; ControlledFlip 0 1; Flip 1], in that order,
    for balanced_10. *)
Theorem deutsch_oracle_table (qc : QuantumCircuit) :
  deutsch_oracle "constant_0" qc = Ok (tt, extend qc []) ∧
  deutsch_oracle "constant_1" qc = Ok (tt, extend qc [Flip 1]) ∧
  deutsch_oracle "balanced_01" qc = Ok (tt, extend qc [ControlledFlip 0 1]) ∧
  deutsch_oracle "balanced_10" qc =
    Ok (tt, extend qc [Flip 1; ControlledFlip 0 1; Flip 1]).
Proof.
  split; [| split; [| split]].
  - rewrite extend_nil. apply deutsch_oracle_constant_0.
  - apply deutsch_oracle_constant_1.
  - apply deutsch_oracle_balanced_01.
  - apply deutsch_oracle_balanced_10.
Qed.

(** C4.  On each of its three names the n-bit chain appends exactly the
    gates of the table, with bit [n] as the output: nothing for
    constant_0, [Flip n] for constant_1, and [ControlledFlip 0 n] for
    balanced. *)
Theorem deutsch_jozsa_oracle_table (n : Z) (qc : QuantumCircuit) :
  deutsch_jozsa_oracle "constant_0" n qc = Ok (tt, extend qc []) ∧
  deutsch_jozsa_oracle "constant_1" n qc = Ok (tt, extend qc [Flip n]) ∧
  deutsch_jozsa_oracle "balanced" n qc = Ok (tt, extend qc [ControlledFlip 0 n]).
Proof.
  split; [| split].
  - rewrite extend_nil. apply deutsch_jozsa_oracle_constant_0.
  - apply deutsch_jozsa_oracle_constant_1.
  - apply deutsch_jozsa_oracle_balanced.
Qed.

(** C5.  The name xor_3 belongs to neither chain.  The one-bit chain
    raises [ValueError] on it and leaves no circuit behind; the n-bit
    chain returns normally with the circuit untouched, and
    [deutsch_jozsa] then builds the very circuit of constant_0. *)
Theorem deutsch_jozsa_oracle_accepts_xor_3 :
  (∀ qc, deutsch_oracle "xor_3" qc = Raise (ValueError "Invalid oracle type")) ∧
  (∀ qc, deutsch_jozsa_oracle "xor_3" 3 qc = Ok (tt, qc)) ∧
  deutsch_jozsa_circuit 3 "xor_3" = deutsch_jozsa_circuit 3 "constant_0" ∧
  (∃ qc, deutsch_jozsa_circuit 3 "xor_3" = Ok qc).
Proof.
  split; [| split; [| split]].
  - intros qc. reflexivity.
  - intros qc. reflexivity.
  - reflexivity.
  - eexists. reflexivity.
Qed.

(** C7.  What an encoder appends is a function of the oracle name and the
    arity alone: one gate sequence serves every circuit the encoder is run
    on, so two runs with the same name append the same gates, also when
    the second run starts from the circuit the first one left.  On a name
    it does not know, the one-bit chain raises the same exception on every
    circuit. *)
Theorem oracle_encoders_stateless (name : string) (n : Z) :
  ((∃ ops, ∀ qc, deutsch_oracle name qc = Ok (tt, extend qc ops) ∧
                 (deutsch_oracle name ;; deutsch_oracle name) qc =
                   Ok (tt, extend qc (ops ++ ops))) ∨
   (∃ e, ∀ qc, deutsch_oracle name qc = Raise e)) ∧
  (∃ ops, ∀ qc, deutsch_jozsa_oracle name n qc = Ok (tt, extend qc ops) ∧
                (deutsch_jozsa_oracle name n ;; deutsch_jozsa_oracle name n) qc =
                  Ok (tt, extend qc (ops ++ ops))).
Proof.
  split.
  - destruct (decide (name ∈ deutsch_names)) as [Hin | Hout].
    + left. destruct (deutsch_oracle_known name Hin) as [ops Hops].
      exists ops. intros qc. split; [apply Hops |].
      by apply bind_extend.
    + right. exists (ValueError "Invalid oracle type"). intros qc.
      by apply deutsch_oracle_unknown.
  - destruct (deutsch_jozsa_oracle_returns name n) as [ops Hops].
    exists ops. intros qc. split; [apply Hops |].
    by apply bind_extend.
Qed.

(** ** What the gates compute *)

Lemma computes_constant_0 out : computes [] out (λ _, false).
Proof. run_gates. Qed.

Lemma computes_constant_1 out : computes [Flip out] out (λ _, true).
Proof. run_gates. Qed.

Lemma computes_first_bit out :
  out ≠ 0 → computes [ControlledFlip 0 out] out (λ reg, reg 0).
Proof. intros Hout. run_gates. Qed.

(** The two flips around the controlled flip act on its target and cancel:
    what is left is the controlled flip alone. *)
Lemma computes_flip_cx_flip out :
  out ≠ 0 →
  computes [Flip out; ControlledFlip 0 out; Flip out] out (λ reg, reg 0).
Proof. intros Hout. run_gates. Qed.

(** Two functions computed by the same gates agree everywhere. *)
Lemma computes_agree ops out f g :
  computes ops out f → computes ops out g → ∀ reg, f reg = g reg.
Proof.
  intros Hf Hg reg.
  destruct (Hf reg) as (r1 & E1 & _ & O1), (Hg reg) as (r2 & E2 & _ & O2).
  rewrite E1 in E2. injection E2 as <-. rewrite O1 in O2.
  by destruct (reg out), (f reg), (g reg).
Qed.

(** X1.  For [n >= 1] the gates of each n-bit oracle compute the function
    its comment names, with bit [n] as the output; those of the balanced one
    add the first input bit, [f(x) = x[0]]. *)
Theorem deutsch_jozsa_oracle_computes (n : Z) (name : string) (f : (Z → bool) → bool) :
  1 ≤ n →
  deutsch_jozsa_function name = Some f →
  ∃ ops, (∀ qc, deutsch_jozsa_oracle name n qc = Ok (tt, extend qc ops)) ∧
         computes ops n f.
Proof.
  unfold deutsch_jozsa_function. intros Hn Hf. name_cases name; [.. | done];
    injection Hf as <-.
  - exists []. split; [intros qc; by rewrite extend_nil |].
    apply computes_constant_0.
  - exists [Flip n]. split; [apply deutsch_jozsa_oracle_constant_1 |].
    apply computes_constant_1.
  - exists [ControlledFlip 0 n].
    split; [apply deutsch_jozsa_oracle_balanced |].
    apply computes_first_bit. lia.
Qed.

Lemma deutsch_jozsa_oracle_computes_witness :
  1 ≤ 3 ∧
  deutsch_jozsa_function "balanced" = Some (λ xs, xs 0) ∧
  ∃ ops, (∀ qc, deutsch_jozsa_oracle "balanced" 3 qc = Ok (tt, extend qc ops)) ∧
         computes ops 3 (λ xs, xs 0).
Proof.
  assert (H3 : 1 ≤ 3) by lia.
  split; [exact H3 |]. split; [reflexivity |].
  exact (deutsch_jozsa_oracle_computes 3 "balanced" (λ xs, xs 0) H3 eq_refl).
Defined.

(** With the output bit at index 0 the balanced gate is no oracle: the
    control and the target coincide and the bit is cleared. *)
Example controlled_flip_0_0 :
  ∀ reg, ∃ reg', apply_gates [ControlledFlip 0 0] reg = Some reg' ∧ reg' 0 = false.
Proof.
  intros reg. eexists. split; [reflexivity |]. simpl.
  by destruct (reg 0).
Qed.

(** X2.  The gates of each one-bit oracle compute a function of the kind
    the performance test expects of its name: a constant one when the name
    contains 'constant', a balanced one otherwise. *)
Theorem deutsch_oracle_meets_expected (name : string) :
  name ∈ deutsch_names →
  ∃ ops f, (∀ qc, deutsch_oracle name qc = Ok (tt, extend qc ops)) ∧
           computes ops 1 (λ reg, f (reg 0)) ∧
           (expected name = "constant" ↔ f false = f true) ∧
           (expected name = "balanced" ↔ f false ≠ f true).
Proof.
  unfold deutsch_names. rewrite !elem_of_cons, elem_of_nil.
  intros [-> | [-> | [-> | [-> | []]]]].
  - exists [], (λ _, false).
    split; [intros qc; by rewrite extend_nil |].
    split; [apply computes_constant_0 |]. by split.
  - exists [Flip 1], (λ _, true).
    split; [apply deutsch_oracle_constant_1 |].
    split; [apply computes_constant_1 |]. by split.
  - exists [ControlledFlip 0 1], (λ b, b).
    split; [apply deutsch_oracle_balanced_01 |].
    split; [by apply computes_first_bit |]. by split.
  - exists [Flip 1; ControlledFlip 0 1; Flip 1], (λ b, b).
    split; [apply deutsch_oracle_balanced_10 |].
    split; [by apply computes_flip_cx_flip |]. by split.
Qed.

Lemma deutsch_oracle_meets_expected_witness :
  "balanced_10" ∈ deutsch_names ∧
  ∃ ops f, (∀ qc, deutsch_oracle "balanced_10" qc = Ok (tt, extend qc ops)) ∧
           computes ops 1 (λ reg, f (reg 0)) ∧
           (expected "balanced_10" = "constant" ↔ f false = f true) ∧
           (expected "balanced_10" = "balanced" ↔ f false ≠ f true).
Proof.
  assert (Hin : "balanced_10" ∈ deutsch_names).
  { unfold deutsch_names. do 3 right. left. }
  split; [exact Hin |].
  exact (deutsch_oracle_meets_expected "balanced_10" Hin).
Defined.

(** X3.  The comments of constant_0, constant_1 and balanced_01 name the
    function their gates compute.  The comment of balanced_10 names
    [f(0) = 1, f(1) = 0], but its gates compute [f(x) = x], the function
    of balanced_01: the two flips sit on the target of the controlled
    flip and cancel. *)
Theorem deutsch_oracle_comments :
  (∀ name f, name ≠ "balanced_10" → deutsch_function name = Some f →
     ∃ ops, (∀ qc, deutsch_oracle name qc = Ok (tt, extend qc ops)) ∧
            computes ops 1 (λ reg, f (reg 0))) ∧
  deutsch_function "balanced_10" = Some negb ∧
  (∃ ops, (∀ qc, deutsch_oracle "balanced_10" qc = Ok (tt, extend qc ops)) ∧
          computes ops 1 (λ reg, reg 0) ∧
          ¬ computes ops 1 (λ reg, negb (reg 0))).
Proof.
  split; [| split; [reflexivity |]].
  - unfold deutsch_function. intros name f Hne Hf.
    name_cases name; [.. | done | done]; injection Hf as <-.
    + exists []. split; [intros qc; by rewrite extend_nil |].
      apply computes_constant_0.
    + exists [Flip 1]. split; [apply deutsch_oracle_constant_1 |].
      apply computes_constant_1.
    + exists [ControlledFlip 0 1].
      split; [apply deutsch_oracle_balanced_01 |].
      by apply (computes_first_bit 1).
  - exists [Flip 1; ControlledFlip 0 1; Flip 1].
    split; [apply deutsch_oracle_balanced_10 |].
    assert (Hid : computes [Flip 1; ControlledFlip 0 1; Flip 1] 1 (λ reg, reg 0))
      by by apply computes_flip_cx_flip.
    split; [exact Hid |].
    intros Hneg.
    pose proof (computes_agree _ _ _ _ Hid Hneg (λ _, false)) as E.
    discriminate E.
Qed.

(** ** The circuits handed to the simulator *)

Lemma for_each_h l qc : for_each l h qc = Ok (tt, extend qc (map Hadamard l)).
Proof.
  revert qc. induction l as [| i l IH]; intros qc; simpl.
  - by rewrite extend_nil.
  - apply (bind_extend _ _ qc [Hadamard i] (map Hadamard l)); [done |].
    apply IH.
Qed.

Lemma build_extend nq nc (m : Build unit) ops :
  (∀ qc, m qc = Ok (tt, extend qc ops)) →
  build nq nc m = Ok (mkQuantumCircuit nq nc ops).
Proof. intros Hm. unfold build. by rewrite Hm. Qed.

(** A builder around an oracle that appends [ops]: the calls before, the
    oracle's, the calls after. *)
Lemma around_oracle (before after : list GateOp) (oracle : Build unit) ops
    (m1 m2 : Build unit) :
  (∀ qc, m1 qc = Ok (tt, extend qc before)) →
  (∀ qc, oracle qc = Ok (tt, extend qc ops)) →
  (∀ qc, m2 qc = Ok (tt, extend qc after)) →
  ∀ qc, (m1 ;; oracle ;; m2) qc = Ok (tt, extend qc (before ++ ops ++ after)).
Proof.
  intros H1 Ho H2 qc. apply bind_extend; [apply H1 |].
  intros qc'. apply bind_extend; [apply Ho | apply H2].
Qed.

Lemma oracle_raises (m1 oracle m2 : Build unit) before e :
  (∀ qc, m1 qc = Ok (tt, extend qc before)) →
  (∀ qc, oracle qc = Raise e) →
  ∀ qc, (m1 ;; oracle ;; m2) qc = Raise e.
Proof.
  intros H1 Ho qc. unfold mbind, Build_bind. by rewrite H1, Ho.
Qed.

(** The calls of [deutsch_algorithm] before and after its oracle. *)
Lemma deutsch_prelude qc :
  (x 1 ;; h 0 ;; h 1) qc = Ok (tt, extend qc [Flip 1; Hadamard 0; Hadamard 1]).
Proof.
  apply (bind_extend _ _ qc [Flip 1] [Hadamard 0; Hadamard 1]); [done |].
  intros qc'. by apply (bind_extend _ _ qc' [Hadamard 0] [Hadamard 1]).
Qed.

Lemma deutsch_finale qc :
  (h 0 ;; measure [0] [0]) qc = Ok (tt, extend qc [Hadamard 0; Measure [0] [0]]).
Proof. by apply (bind_extend _ _ qc [Hadamard 0] [Measure [0] [0]]). Qed.

Lemma bind_assoc_build (m1 m2 m3 : Build unit) qc :
  (m1 ;; m2 ;; m3) qc = ((m1 ;; m2) ;; m3) qc.
Proof.
  unfold mbind, Build_bind. destruct (m1 qc) as [[[] qc1] | e]; [| done].
  reflexivity.
Qed.

Lemma in_range_spec n i : in_range n i = true ↔ 0 ≤ i < n.
Proof. unfold in_range. rewrite andb_true_iff, Z.leb_le, Z.ltb_lt. done. Qed.

Lemma In_range n i : In i (range n) ↔ 0 ≤ i < n.
Proof.
  unfold range. rewrite in_map_iff. split.
  - intros (k & <- & Hk). apply in_seq in Hk. lia.
  - intros Hi. exists (Z.to_nat i). split; [lia |]. apply in_seq. lia.
Qed.

Lemma length_range n : length (range n) = Z.to_nat n.
Proof. unfold range. by rewrite length_map, length_seq. Qed.

Lemma forallb_in_range n m : m ≤ n → forallb (in_range n) (range m) = true.
Proof.
  intros Hm. apply forallb_forall. intros i Hi.
  apply In_range in Hi. apply in_range_spec. lia.
Qed.

Lemma hadamards_in_registers nq nc m :
  m ≤ nq → forallb (gate_in_registers nq nc) (map Hadamard (range m)) = true.
Proof.
  intros Hm. apply forallb_forall. intros g Hg.
  apply in_map_iff in Hg as (i & <- & Hi). apply In_range in Hi.
  simpl. apply in_range_spec. lia.
Qed.

(** A builder of the shape of [deutsch_algorithm]: three calls, the
    oracle, two calls. *)
Lemma deutsch_frame (oracle : Build unit) ops :
  (∀ qc, oracle qc = Ok (tt, extend qc ops)) →
  build 2 1 (x 1 ;; h 0 ;; h 1 ;; oracle ;; h 0 ;; measure [0] [0]) =
  Ok (mkQuantumCircuit 2 1
        ([Flip 1; Hadamard 0; Hadamard 1] ++ ops ++
         [Hadamard 0; Measure [0] [0]])).
Proof.
  intros Ho. apply build_extend. intros qc.
  apply (bind_extend _ _ qc [Flip 1]); [done |]. intros qc1.
  apply (bind_extend _ _ qc1 [Hadamard 0]); [done |]. intros qc2.
  apply (bind_extend _ _ qc2 [Hadamard 1]); [done |]. intros qc3.
  apply (bind_extend _ _ qc3 ops); [apply Ho |]. intros qc4.
  by apply (bind_extend _ _ qc4 [Hadamard 0] [Measure [0] [0]]).
Qed.

Lemma deutsch_frame_raise (oracle : Build unit) e :
  (∀ qc, oracle qc = Raise e) →
  build 2 1 (x 1 ;; h 0 ;; h 1 ;; oracle ;; h 0 ;; measure [0] [0]) = Raise e.
Proof.
  intros Ho. unfold build, mbind, Build_bind. simpl. by rewrite Ho.
Qed.

(** The gates of a one-bit oracle, one of four sequences. *)
Lemma deutsch_oracle_ops name :
  name ∈ oracle_types →
  ∃ ops, (∀ qc, deutsch_oracle name qc = Ok (tt, extend qc ops)) ∧
         (∀ qc, noisy_oracle name qc = Ok (tt, extend qc ops)) ∧
         ops ∈ [[]; [Flip 1]; [ControlledFlip 0 1];
                [Flip 1; ControlledFlip 0 1; Flip 1]].
Proof.
  unfold oracle_types. rewrite !elem_of_cons, elem_of_nil.
  intros [-> | [-> | [-> | [-> | []]]]].
  - exists []. split; [| split].
    + intros qc. by rewrite extend_nil.
    + intros qc. by rewrite extend_nil.
    + by left.
  - exists [Flip 1]. split; [| split]; [done | done |]. right. by left.
  - exists [ControlledFlip 0 1]. split; [| split]; [done | done |].
    do 2 right. by left.
  - exists [Flip 1; ControlledFlip 0 1; Flip 1]. split; [| split].
    + apply deutsch_oracle_balanced_10.
    + apply deutsch_oracle_balanced_10.
    + do 3 right. by left.
Qed.

(** The gates of an n-bit oracle, one of three sequences, the empty one
    for every name outside [dj_oracles]. *)
Lemma deutsch_jozsa_oracle_ops name n :
  ∃ ops, (∀ qc, deutsch_jozsa_oracle name n qc = Ok (tt, extend qc ops)) ∧
         ops ∈ [[]; [Flip n]; [ControlledFlip 0 n]] ∧
         (name ∉ dj_oracles → ops = []).
Proof.
  destruct (decide (name ∈ dj_oracles)) as [Hin | Hout].
  - revert Hin. unfold dj_oracles. rewrite !elem_of_cons, elem_of_nil.
    intros [-> | [-> | [-> | []]]].
    + exists []. split; [| split]; [| by left | done].
      intros qc. by rewrite extend_nil.
    + exists [Flip n]. split; [| split]; [done | right; by left |].
      intros Hout. exfalso. apply Hout. right. by left.
    + exists [ControlledFlip 0 n]. split; [| split]; [done | do 2 right; by left |].
      intros Hout. exfalso. apply Hout. do 2 right. by left.
  - exists []. split; [| split]; [| by left | done].
    intros qc. rewrite extend_nil. by apply deutsch_jozsa_oracle_unknown.
Qed.

Lemma interpret_result_returns (counts : gmap string Z) :
  ∃ label, interpret_result counts = Ok label ∧
           (label = "constant" ∨ label = "balanced").
Proof.
  rewrite interpret_result_eq.
  destruct (counts !! "0") as [c0 |];
    [destruct (c0 >? default 0 (counts !! "1")) |]; eauto.
Qed.

(** X4.  On each of the four names of [oracle_types], [deutsch_algorithm]
    hands the simulator a circuit of 2 qubits and 1 classical bit: the
    flip of bit 1 and the two Hadamards, the gates of the oracle, then the
    Hadamard on bit 0 and the measure of bit 0 into classical bit 0; every
    index of it lies inside its register. *)
Theorem deutsch_algorithm_circuit_frame (name : string) :
  name ∈ oracle_types →
  ∃ ops qc,
    (∀ qc0, deutsch_oracle name qc0 = Ok (tt, extend qc0 ops)) ∧
    deutsch_algorithm_circuit name = Ok qc ∧
    qc = mkQuantumCircuit 2 1
           ([Flip 1; Hadamard 0; Hadamard 1] ++ ops ++
            [Hadamard 0; Measure [0] [0]]) ∧
    in_registers qc = true.
Proof.
  intros Hin. destruct (deutsch_oracle_ops name Hin) as (ops & Ho & _ & Hops).
  exists ops. eexists. split; [exact Ho |].
  split; [by apply deutsch_frame |]. split; [reflexivity |].
  revert Hops. rewrite !elem_of_cons, elem_of_nil.
  intros [-> | [-> | [-> | [-> | []]]]]; reflexivity.
Qed.

Lemma deutsch_algorithm_circuit_frame_witness :
  "balanced_10" ∈ oracle_types ∧
  ∃ ops qc,
    (∀ qc0, deutsch_oracle "balanced_10" qc0 = Ok (tt, extend qc0 ops)) ∧
    deutsch_algorithm_circuit "balanced_10" = Ok qc ∧
    qc = mkQuantumCircuit 2 1
           ([Flip 1; Hadamard 0; Hadamard 1] ++ ops ++
            [Hadamard 0; Measure [0] [0]]) ∧
    in_registers qc = true.
Proof.
  assert (Hin : "balanced_10" ∈ oracle_types).
  { unfold oracle_types. do 3 right. left. }
  split; [exact Hin |].
  exact (deutsch_algorithm_circuit_frame "balanced_10" Hin).
Defined.

(** X5.  Run, then classify: on a name of [oracle_types] the round
    answers 'constant' or 'balanced', the classification of what the
    simulator returned for the circuit at 1024 shots; on any other name it
    raises the [ValueError] of the oracle chain, whatever the simulator.
    No round ends in a [KeyError]. *)
Theorem test_oracle_outcome (simulate : Simulator) (name : string) :
  (name ∈ oracle_types ∧
   ∃ qc label,
     deutsch_algorithm_circuit name = Ok qc ∧
     interpret_result (simulate qc 1024) = Ok label ∧
     test_oracle simulate name = Ok label ∧
     (label = "constant" ∨ label = "balanced")) ∨
  ((name ∉ oracle_types) ∧
   deutsch_algorithm simulate name = Raise (ValueError "Invalid oracle type") ∧
   test_oracle simulate name = Raise (ValueError "Invalid oracle type")).
Proof.
  destruct (decide (name ∈ oracle_types)) as [Hin | Hout].
  - left. split; [exact Hin |].
    destruct (deutsch_oracle_ops name Hin) as (ops & Ho & _).
    pose proof (deutsch_frame _ ops Ho) as Hc.
    fold (deutsch_algorithm_circuit name) in Hc.
    destruct (interpret_result_returns (simulate (mkQuantumCircuit 2 1
        ([Flip 1; Hadamard 0; Hadamard 1] ++ ops ++
         [Hadamard 0; Measure [0] [0]])) 1024)) as (label & Hl & Hcases).
    eexists. exists label.
    split; [exact Hc |]. split; [exact Hl |]. split; [| exact Hcases].
    unfold test_oracle, deutsch_algorithm. rewrite Hc. exact Hl.
  - right. split; [exact Hout |].
    assert (Hr : deutsch_algorithm_circuit name =
                 Raise (ValueError "Invalid oracle type")).
    { apply deutsch_frame_raise. intros qc. by apply deutsch_oracle_unknown. }
    unfold test_oracle, deutsch_algorithm. rewrite Hr. done.
Qed.

(** X6.  The noise test writes the circuit of [deutsch_algorithm] out
    again: on each name of [oracle_types] the two circuits are the same,
    and so are the two rounds under one simulator answer. *)
Theorem noisy_circuit_agrees (simulate : Simulator) (name : string) :
  name ∈ oracle_types →
  noisy_circuit name = deutsch_algorithm_circuit name ∧
  noisy_test simulate name = test_oracle simulate name.
Proof.
  intros Hin. destruct (deutsch_oracle_ops name Hin) as (ops & Ho & Hn & _).
  assert (E : noisy_circuit name = deutsch_algorithm_circuit name).
  { unfold noisy_circuit, deutsch_algorithm_circuit.
    by rewrite (deutsch_frame _ ops Ho), (deutsch_frame _ ops Hn). }
  split; [exact E |].
  unfold noisy_test, test_oracle, deutsch_algorithm. rewrite E.
  by destruct (deutsch_algorithm_circuit name).
Qed.

Lemma noisy_circuit_agrees_witness :
  "balanced_10" ∈ oracle_types ∧
  noisy_circuit "balanced_10" = deutsch_algorithm_circuit "balanced_10" ∧
  noisy_test (λ _ _, {[ "1" := 1024 ]}) "balanced_10" =
  test_oracle (λ _ _, {[ "1" := 1024 ]}) "balanced_10".
Proof.
  assert (Hin : "balanced_10" ∈ oracle_types).
  { unfold oracle_types. do 3 right. left. }
  split; [exact Hin |].
  exact (noisy_circuit_agrees (λ _ _, {[ "1" := 1024 ]}) "balanced_10" Hin).
Defined.

(** Outside [oracle_types] the two part ways: the noise test's chain has
    no [else] and builds the circuit of constant_0. *)
Lemma noisy_circuit_unknown name :
  name ∉ oracle_types →
  noisy_circuit name = noisy_circuit "constant_0" ∧
  deutsch_algorithm_circuit name = Raise (ValueError "Invalid oracle type").
Proof.
  intros Hout. split.
  - assert (Hn : ∀ qc, noisy_oracle name qc = Ok (tt, extend qc [])).
    { intros qc. rewrite extend_nil. revert Hout.
      unfold oracle_types. rewrite !not_elem_of_cons.
      intros (H1 & H2 & H3 & H4 & _). unfold noisy_oracle.
      by refute_names. }
    unfold noisy_circuit. by rewrite (deutsch_frame _ [] Hn).
  - apply deutsch_frame_raise. intros qc. by apply deutsch_oracle_unknown.
Qed.

(** A builder of the shape of [deutsch_jozsa], around any oracle. *)
Lemma deutsch_jozsa_frame n (oracle : Build unit) ops :
  (∀ qc, oracle qc = Ok (tt, extend qc ops)) →
  build (n + 1) n
    (x n ;; for_each (range (n + 1)) h ;; oracle ;;
     for_each (range n) h ;; measure (range n) (range n)) =
  Ok (mkQuantumCircuit (n + 1) n
        ([Flip n] ++ map Hadamard (range (n + 1)) ++ ops ++
         map Hadamard (range n) ++ [Measure (range n) (range n)])).
Proof.
  intros Ho. apply build_extend. intros qc.
  apply (bind_extend _ _ qc [Flip n]); [done |]. intros qc1.
  apply (bind_extend _ _ qc1 (map Hadamard (range (n + 1))));
    [apply for_each_h |]. intros qc2.
  apply (bind_extend _ _ qc2 ops); [apply Ho |]. intros qc3.
  apply (bind_extend _ _ qc3 (map Hadamard (range n)));
    [apply for_each_h |]. intros qc4. done.
Qed.

Lemma deutsch_jozsa_circuit_shape n name :
  ∃ ops,
    deutsch_jozsa_circuit n name =
      Ok (mkQuantumCircuit (n + 1) n
            ([Flip n] ++ map Hadamard (range (n + 1)) ++ ops ++
             map Hadamard (range n) ++ [Measure (range n) (range n)])) ∧
    ops ∈ [[]; [Flip n]; [ControlledFlip 0 n]].
Proof.
  destruct (deutsch_jozsa_oracle_ops name n) as (ops & Ho & Hops & _).
  exists ops. split; [by apply deutsch_jozsa_frame | exact Hops].
Qed.

(** X7.  For [n >= 1] and whatever the name, [deutsch_jozsa] builds a
    circuit: [n+1] qubits and [n] classical bits, the flip of bit [n], a
    Hadamard on each of the bits [0..n], the gates of the oracle, a
    Hadamard on each of the bits [0..n-1], and one measure of the bits
    [0..n-1].  A name outside [dj_oracles] contributes no gate, so it gets
    the circuit of constant_0. *)
Theorem deutsch_jozsa_circuit_frame (n : Z) (name : string) :
  1 ≤ n →
  ∃ ops,
    (∀ qc, deutsch_jozsa_oracle name n qc = Ok (tt, extend qc ops)) ∧
    deutsch_jozsa_circuit n name =
      Ok (mkQuantumCircuit (n + 1) n
            ([Flip n] ++ map Hadamard (range (n + 1)) ++ ops ++
             map Hadamard (range n) ++ [Measure (range n) (range n)])) ∧
    ((name ∉ dj_oracles) →
       deutsch_jozsa_circuit n name = deutsch_jozsa_circuit n "constant_0").
Proof.
  intros _.
  destruct (deutsch_jozsa_oracle_ops name n) as (ops & Ho & _ & Hnil).
  exists ops. split; [exact Ho |]. split; [by apply deutsch_jozsa_frame |].
  intros Hout. rewrite (Hnil Hout) in Ho.
  unfold deutsch_jozsa_circuit at 1. rewrite (deutsch_jozsa_frame n _ [] Ho).
  symmetry. apply deutsch_jozsa_frame. intros qc. by rewrite extend_nil.
Qed.

Lemma deutsch_jozsa_circuit_frame_witness :
  1 ≤ 3 ∧
  ∃ ops,
    (∀ qc, deutsch_jozsa_oracle "balanced" 3 qc = Ok (tt, extend qc ops)) ∧
    deutsch_jozsa_circuit 3 "balanced" =
      Ok (mkQuantumCircuit (3 + 1) 3
            ([Flip 3] ++ map Hadamard (range (3 + 1)) ++ ops ++
             map Hadamard (range 3) ++ [Measure (range 3) (range 3)])) ∧
    (("balanced" ∉ dj_oracles) →
       deutsch_jozsa_circuit 3 "balanced" = deutsch_jozsa_circuit 3 "constant_0").
Proof.
  assert (H3 : 1 ≤ 3) by lia.
  split; [exact H3 |].
  exact (deutsch_jozsa_circuit_frame 3 "balanced" H3).
Defined.

Lemma in_registers_app nq nc ops1 ops2 :
  forallb (gate_in_registers nq nc) (ops1 ++ ops2) =
  forallb (gate_in_registers nq nc) ops1 &&
  forallb (gate_in_registers nq nc) ops2.
Proof. apply forallb_app. Qed.

(** X8.  For [n >= 1] every index of the circuit of [deutsch_jozsa] lies
    inside its register, whatever the name: qubits in [0..n], classical
    bits in [0..n-1], and the controlled flip of the balanced oracle on
    two different qubits. *)
Theorem deutsch_jozsa_circuit_in_registers (n : Z) (name : string) :
  1 ≤ n →
  ∃ qc, deutsch_jozsa_circuit n name = Ok qc ∧
        num_qubits qc = n + 1 ∧ num_clbits qc = n ∧
        in_registers qc = true.
Proof.
  intros Hn.
  destruct (deutsch_jozsa_circuit_shape n name) as (ops & Hc & Hops).
  eexists. split; [exact Hc |]. split; [done |]. split; [done |].
  unfold in_registers. cbn [num_qubits num_clbits data].
  rewrite !in_registers_app, !andb_true_iff.
  split; [| split; [| split; [| split]]].
  - cbn [forallb gate_in_registers].
    rewrite andb_true_r. apply in_range_spec. lia.
  - apply hadamards_in_registers. lia.
  - revert Hops. rewrite !elem_of_cons, elem_of_nil.
    intros [-> | [-> | [-> | []]]]; cbn [forallb gate_in_registers]; [done | |].
    + rewrite andb_true_r. apply in_range_spec. lia.
    + rewrite andb_true_r, !andb_true_iff, !in_range_spec, negb_true_iff.
      rewrite Z.eqb_neq. lia.
  - apply hadamards_in_registers. lia.
  - cbn [forallb gate_in_registers]. rewrite andb_true_r, !andb_true_iff.
    split; [split |].
    + apply forallb_in_range. lia.
    + apply forallb_in_range. lia.
    + by apply Nat.eqb_eq.
Qed.

Lemma deutsch_jozsa_circuit_in_registers_witness :
  1 ≤ 3 ∧
  ∃ qc, deutsch_jozsa_circuit 3 "balanced" = Ok qc ∧
        num_qubits qc = 3 + 1 ∧ num_clbits qc = 3 ∧
        in_registers qc = true.
Proof.
  assert (H3 : 1 ≤ 3) by lia.
  split; [exact H3 |].
  exact (deutsch_jozsa_circuit_in_registers 3 "balanced" H3).
Defined.

(** Below the bound: at arity 0 the calls recorded for the balanced
    oracle include [cx(0, 0)], bit 0 named twice, the call the library
    refuses. *)
Example deutsch_jozsa_circuit_0_balanced :
  in_registers <$> deutsch_jozsa_circuit 0 "balanced" = Ok false.
Proof. reflexivity. Qed.

(** X9.  At arity 1 [deutsch_jozsa] is [deutsch_algorithm]: for
    constant_0, for constant_1, and for balanced against balanced_01, the
    same circuit reaches the simulator, so under one simulator answer the
    two functions return the same histogram. *)
Theorem deutsch_jozsa_1_is_deutsch (simulate : Simulator) (dj d : string) :
  (dj, d) ∈ [("constant_0", "constant_0"); ("constant_1", "constant_1");
             ("balanced", "balanced_01")] →
  deutsch_jozsa_circuit 1 dj = deutsch_algorithm_circuit d ∧
  deutsch_jozsa simulate 1 dj = deutsch_algorithm simulate d.
Proof.
  rewrite !elem_of_cons, elem_of_nil.
  intros [[= -> ->] | [[= -> ->] | [[= -> ->] | []]]]; by split.
Qed.

Lemma deutsch_jozsa_1_is_deutsch_witness :
  ("balanced", "balanced_01") ∈
    [("constant_0", "constant_0"); ("constant_1", "constant_1");
     ("balanced", "balanced_01")] ∧
  deutsch_jozsa_circuit 1 "balanced" = deutsch_algorithm_circuit "balanced_01".
Proof.
  assert (Hin : ("balanced", "balanced_01") ∈
    [("constant_0", "constant_0"); ("constant_1", "constant_1");
     ("balanced", "balanced_01")]) by (do 2 right; left).
  split; [exact Hin |].
  exact (proj1 (deutsch_jozsa_1_is_deutsch (λ _ _, ∅) "balanced" "balanced_01" Hin)).
Defined.

(** X10.  An unknown name passes the last loop unnoticed: a round of it,
    [deutsch_jozsa(3, name)] and the test against ['0'*3], ends in one of
    the two labels for every name, and for a name outside [dj_oracles] the
    circuit, the histogram and the label are those of constant_0. *)
Theorem dj_test_outcome (simulate : Simulator) (name : string) :
  (∃ label, dj_test simulate name = Ok label ∧
            (label = "constant" ∨ label = "balanced")) ∧
  ((name ∉ dj_oracles) →
     deutsch_jozsa simulate 3 name = deutsch_jozsa simulate 3 "constant_0" ∧
     dj_test simulate name = dj_test simulate "constant_0").
Proof.
  split.
  - destruct (deutsch_jozsa_circuit_shape 3 name) as (ops & Hc & _).
    unfold dj_test, deutsch_jozsa. rewrite Hc. simpl.
    eexists. split; [reflexivity |].
    unfold dj_interpret_3. destruct (is_constant_3 _); auto.
  - intros Hout.
    destruct (deutsch_jozsa_oracle_ops name 3) as (ops & Ho & _ & Hnil).
    rewrite (Hnil Hout) in Ho.
    assert (E : deutsch_jozsa_circuit 3 name = deutsch_jozsa_circuit 3 "constant_0").
    { unfold deutsch_jozsa_circuit at 1. rewrite (deutsch_jozsa_frame 3 _ [] Ho).
      symmetry. apply deutsch_jozsa_frame. intros qc. by rewrite extend_nil. }
    unfold dj_test, deutsch_jozsa. by rewrite E.
Qed.

(** ** More on the one-bit classifier *)

(** X11.  A histogram with a single key is 'constant' exactly when the
    key is ['0'] and its count is positive; a lone ['0'] with count 0, and
    any other lone key, is 'balanced'. *)
Theorem interpret_result_singleton (key : string) (k : Z) :
  interpret_result {[ key := k ]} =
  Ok (if decide (key = "0" ∧ 0 < k) then "constant" else "balanced").
Proof.
  rewrite interpret_result_eq.
  destruct (decide (key = "0")) as [-> | Hne].
  - rewrite lookup_singleton_eq, lookup_singleton_ne by done. simpl.
    destruct (Z.gtb_spec k 0) as [Hk | Hk];
      destruct (decide ("0" = "0" ∧ 0 < k)) as [Hd | Hd]; try done.
    + exfalso. apply Hd. split; [done | lia].
    + destruct Hd as [_ Hd]. lia.
  - rewrite lookup_singleton_ne by done.
    destruct (decide (key = "0" ∧ 0 < k)) as [[Hd _] | Hd]; done.
Qed.

(** X12.  The majority vote is monotone: from a histogram classified
    'constant', counting ['0'] at least as often and ['1'] at most as often
    stays 'constant'; from one classified 'balanced', counting ['0'] at
    most as often and ['1'] at least as often stays 'balanced'. *)
Theorem interpret_result_monotone (h1 h2 : gmap string Z) (a1 a2 : Z) :
  h1 !! "0" = Some a1 → h2 !! "0" = Some a2 →
  a1 ≤ a2 →
  default 0 (h2 !! "1") ≤ default 0 (h1 !! "1") →
  (interpret_result h1 = Ok "constant" → interpret_result h2 = Ok "constant") ∧
  (interpret_result h2 = Ok "balanced" → interpret_result h1 = Ok "balanced").
Proof.
  intros E1 E2 Ha Hb. rewrite !interpret_result_eq, E1, E2.
  destruct (Z.gtb_spec a1 (default 0 (h1 !! "1")));
    destruct (Z.gtb_spec a2 (default 0 (h2 !! "1"))); try done.
  lia.
Qed.

Lemma interpret_result_monotone_witness :
  let h1 : gmap string Z := <[ "0" := 600 ]> {[ "1" := 424 ]} in
  let h2 : gmap string Z := <[ "0" := 1000 ]> {[ "1" := 24 ]} in
  h1 !! "0" = Some 600 ∧ h2 !! "0" = Some 1000 ∧ 600 ≤ 1000 ∧
  default 0 (h2 !! "1") ≤ default 0 (h1 !! "1") ∧
  interpret_result h1 = Ok "constant" ∧
  interpret_result h2 = Ok "constant".
Proof.
  intros h1 h2.
  assert (E1 : h1 !! "0" = Some 600) by (vm_compute; reflexivity).
  assert (E2 : h2 !! "0" = Some 1000) by (vm_compute; reflexivity).
  assert (Ha : 600 ≤ 1000) by lia.
  assert (Hb : default 0 (h2 !! "1") ≤ default 0 (h1 !! "1"))
    by (vm_compute; discriminate).
  assert (Hc : interpret_result h1 = Ok "constant") by (vm_compute; reflexivity).
  repeat (split; [assumption |]).
  exact (proj1 (interpret_result_monotone h1 h2 600 1000 E1 E2 Ha Hb) Hc).
Defined.

(** X13.  The two classifiers of the script read different keys, ['0']
    and ['1'] for one, ['000'] for the other: on no histogram do they
    both answer 'constant'.  What the test against
    ['0'*3] calls 'constant', [interpret_result] calls 'balanced', and
    what [interpret_result] calls 'constant', the test calls 'balanced'. *)
Theorem classifiers_never_both_constant (counts : gmap string Z) :
  (dj_interpret_3 counts = "constant" →
     interpret_result counts = Ok "balanced") ∧
  (interpret_result counts = Ok "constant" →
     dj_interpret_3 counts = "balanced").
Proof.
  split.
  - rewrite dj_interpret_3_eq. intros Hdj.
    pose proof (proj1 (dj_interpret_constant 3 counts) Hdj) as Hall.
    apply interpret_result_balanced. intros (c0 & Hc0 & _).
    assert (E : "0" = str_mul "0" 3) by (apply Hall, elem_of_dom; eauto).
    discriminate E.
  - intros Hc. apply interpret_result_constant in Hc as (c0 & Hc0 & _).
    rewrite dj_interpret_3_eq.
    apply (dj_interpret_stray_key 3 counts "0" c0 Hc0). discriminate.
Qed.

Lemma classifiers_never_both_constant_witness :
  let counts : gmap string Z := {[ "000" := 1024 ]} in
  dj_interpret_3 counts = "constant" ∧
  interpret_result counts = Ok "balanced".
Proof.
  intros counts.
  assert (Hdj : dj_interpret_3 counts = "constant") by (vm_compute; reflexivity).
  split; [exact Hdj |].
  exact (proj1 (classifiers_never_both_constant counts) Hdj).
Defined.

(** ** The arity of the exact test *)

Lemma length_append (s1 s2 : string) :
  String.length (String.append s1 s2) = (String.length s1 + String.length s2)%nat.
Proof. induction s1 as [| a s1 IH]; simpl; [done | by rewrite IH]. Qed.

Lemma length_str_mul (s : string) (n : Z) :
  String.length (str_mul s n) = (Z.to_nat n * String.length s)%nat.
Proof.
  unfold str_mul. induction (Z.to_nat n) as [| k IH]; simpl; [done |].
  by rewrite length_append, IH.
Qed.

(** X14.  The exact test is tied to its arity: on a histogram that is not
    empty and whose keys are [m] characters long, the test against [n]
    zeros with [n] other than [m] answers 'balanced', the all-zeros
    outcome included.  So the script's test against ['0'*3] fits runs at
    arity 3 only. *)
Theorem dj_interpret_wrong_arity (n m : Z) (counts : gmap string Z) :
  0 ≤ n → 0 ≤ m → m ≠ n →
  counts ≠ ∅ →
  (∀ key, key ∈ dom counts → String.length key = Z.to_nat m) →
  dj_interpret n counts = "balanced".
Proof.
  intros Hn Hm Hmn Hne Hlen.
  destruct (map_choose counts Hne) as (key & c & Hc).
  apply (dj_interpret_stray_key n counts key c Hc).
  intros ->.
  assert (Hk : str_mul "0" n ∈ dom counts) by (apply elem_of_dom; eauto).
  apply Hlen in Hk. rewrite length_str_mul in Hk. simpl in Hk. lia.
Qed.

Lemma dj_interpret_wrong_arity_witness :
  let counts : gmap string Z := {[ "00" := 1024 ]} in
  0 ≤ 3 ∧ 0 ≤ 2 ∧ 2 ≠ 3 ∧ counts ≠ ∅ ∧
  (∀ key, key ∈ dom counts → String.length key = Z.to_nat 2) ∧
  dj_interpret 3 counts = "balanced".
Proof.
  intros counts.
  assert (H3 : 0 ≤ 3) by lia.
  assert (H2 : 0 ≤ 2) by lia.
  assert (H23 : 2 ≠ 3) by lia.
  assert (Hne : counts ≠ ∅) by apply insert_non_empty.
  assert (Hlen : ∀ key, key ∈ dom counts → String.length key = Z.to_nat 2).
  { intros key Hk. unfold counts in Hk. rewrite dom_singleton_L in Hk.
    apply elem_of_singleton in Hk as ->. reflexivity. }
  repeat (split; [assumption |]).
  exact (dj_interpret_wrong_arity 3 2 counts H3 H2 H23 Hne Hlen).
Defined.

(** ** The performance test *)

Lemma deutsch_algorithm_known (simulate : Simulator) oracle :
  oracle ∈ oracle_types →
  ∃ counts, deutsch_algorithm simulate oracle = Ok counts ∧
            test_oracle simulate oracle = interpret_result counts.
Proof.
  intros Hin. destruct (deutsch_oracle_ops oracle Hin) as (ops & Ho & _).
  pose proof (deutsch_frame _ ops Ho) as Hc.
  fold (deutsch_algorithm_circuit oracle) in Hc.
  eexists. unfold test_oracle, deutsch_algorithm. rewrite Hc. simpl.
  split; reflexivity.
Qed.

(** One round of the loop, for a name of [oracle_types]. *)
Lemma count_correct_cons simulate sims oracle exp c :
  oracle ∈ oracle_types →
  ∃ label,
    test_oracle simulate oracle = Ok label ∧
    count_correct (simulate :: sims) oracle exp c =
    count_correct sims oracle exp
      (if String.eqb label exp then c + 1 else c).
Proof.
  intros Hin.
  destruct (deutsch_algorithm_known simulate oracle Hin) as (counts & Hd & Ht).
  destruct (interpret_result_returns counts) as (label & Hl & _).
  exists label. split; [by rewrite Ht |].
  cbn [count_correct]. rewrite Hd. unfold mbind at 1, result_bind.
  by rewrite Hl.
Qed.

Lemma count_correct_spec sims oracle exp c :
  oracle ∈ oracle_types →
  ∃ c', count_correct sims oracle exp c = Ok c' ∧
        c ≤ c' ≤ c + Z.of_nat (length sims) ∧
        (c' = c + Z.of_nat (length sims) ↔
         Forall (λ simulate, test_oracle simulate oracle = Ok exp) sims).
Proof.
  intros Hin. revert c. induction sims as [| simulate sims IH]; intros c.
  - exists c. split; [done |]. split; [simpl; lia |].
    split; [constructor | intros _; simpl; lia].
  - destruct (count_correct_cons simulate sims oracle exp c Hin)
      as (label & Ht & ->).
    destruct (String.eqb_spec label exp) as [-> | Hne].
    + destruct (IH (c + 1)) as (c' & Hc' & Hb & Hall).
      exists c'. split; [exact Hc' |].
      rewrite length_cons, Nat2Z.inj_succ, Forall_cons, Ht.
      split; [lia |]. split.
      * intros E. split; [done |]. apply Hall. lia.
      * intros [_ HF]. apply Hall in HF. lia.
    + destruct (IH c) as (c' & Hc' & Hb & _).
      exists c'. split; [exact Hc' |].
      rewrite length_cons, Nat2Z.inj_succ, Forall_cons, Ht.
      split; [lia |]. split.
      * intros E. lia.
      * intros [Ht' _]. by injection Ht'.
Qed.

(** X15.  For a name of [oracle_types] the performance loop ends without
    an exception, whatever the simulator answers round by round; the
    number of rounds it counts as correct lies between 0 and the number of
    rounds, and reaches it exactly when every round was classified as the
    name leads to expect. *)
Theorem performance_count (sims : list Simulator) (oracle : string) :
  oracle ∈ oracle_types →
  ∃ correct,
    performance sims oracle = Ok correct ∧
    0 ≤ correct ≤ Z.of_nat (length sims) ∧
    (correct = Z.of_nat (length sims) ↔
     Forall (λ simulate, test_oracle simulate oracle = Ok (expected oracle)) sims).
Proof.
  intros Hin. unfold performance.
  destruct (count_correct_spec sims oracle (expected oracle) 0 Hin)
    as (c' & Hc' & Hb & Hall).
  exists c'. split; [exact Hc' |]. split; [lia |].
  rewrite <- Hall. lia.
Qed.

Lemma performance_count_witness :
  let ideal : Simulator := λ _ _, {[ "1" := 1024 ]} in
  let noisy : Simulator := λ _ _, <[ "0" := 600 ]> {[ "1" := 424 ]} in
  "balanced_01" ∈ oracle_types ∧
  performance [ideal; noisy; ideal] "balanced_01" = Ok 2 ∧
  ∃ correct,
    performance [ideal; noisy; ideal] "balanced_01" = Ok correct ∧
    0 ≤ correct ≤ Z.of_nat (length [ideal; noisy; ideal]) ∧
    (correct = Z.of_nat (length [ideal; noisy; ideal]) ↔
     Forall (λ simulate, test_oracle simulate "balanced_01" =
                         Ok (expected "balanced_01")) [ideal; noisy; ideal]).
Proof.
  intros ideal noisy.
  assert (Hin : "balanced_01" ∈ oracle_types).
  { unfold oracle_types. do 2 right. left. }
  split; [exact Hin |]. split; [vm_compute; reflexivity |].
  exact (performance_count [ideal; noisy; ideal] "balanced_01" Hin).
Defined.

(** For any other name the first round raises and the loop is over. *)
Lemma performance_unknown simulate sims oracle :
  oracle ∉ oracle_types →
  performance (simulate :: sims) oracle = Raise (ValueError "Invalid oracle type").
Proof.
  intros Hout. unfold performance. cbn [count_correct].
  unfold deutsch_algorithm.
  assert (Hr : deutsch_algorithm_circuit oracle =
               Raise (ValueError "Invalid oracle type")).
  { apply deutsch_frame_raise. intros qc. by apply deutsch_oracle_unknown. }
  by rewrite Hr.
Qed.
